(** * ml4code: [utils.py]

    A shallow embedding of the three functions of [utils.py]
    ([get_code], [get_token_stream], [create_vocab]) and the properties
    of them that the specification states.

    Conventions of the embedding.
    - A Python [str] is a [string]: the UTF-8 bytes of the text.  Python
      orders strings by code point, and UTF-8 keeps that order, so the
      byte-wise lexicographic order [str_le] is the order [sorted] uses.
    - A Python [dict] is an insertion-ordered association list with unique
      keys ([PyDict]); a Python [set] is a [gset], whose iteration order
      ([elements]) is left unspecified, like Python's.
    - A raised exception is the [Raise] case of [result]; calls into
      libraries outside the repository ([ast.parse], [tokenize.tokenize],
      [datasets.load_dataset]) are variables of a section, and calling one
      leaves an [event] in the trace of the computation. *)

From stdpp Require Import base decidable option list sorting gmap strings.
From Stdlib Require Import NArith Lia.

Local Open Scope string_scope.
Local Open Scope list_scope.
Local Open Scope nat_scope.

(** ** Python values *)

(** The order of [str.__lt__] / [str.__le__]. *)
Definition str_le (s t : string) : Prop := String.leb s t = true.
Definition str_lt (s t : string) : Prop := String.ltb s t = true.

Global Instance str_le_dec : RelDecision str_le.
Proof. intros s t. unfold str_le. apply _. Defined.

Global Instance str_lt_dec : RelDecision str_lt.
Proof. intros s t. unfold str_lt. apply _. Defined.

(** [sum(xs, start)]: [start + xs[0] + xs[1] + ...], left to right. *)
Definition py_sum {A} (xs : list (list A)) (start : list A) : list A :=
  foldl (λ acc x, acc ++ x) start xs.

(** [set(l)]. *)
Definition py_set (l : list string) : gset string := list_to_set l.

(** [sorted(s)] for a set of strings. *)
Definition sorted (s : gset string) : list string :=
  merge_sort str_le (elements s).

(** Insertion-ordered dictionaries. *)
Module PyDict.
Section dict.
Context {K V : Type} `{EqDecision K}.

Definition dict : Type := list (K * V).

Definition empty : dict := [].

(** [len(d)] *)
Definition len (d : dict) : nat := length d.

(** [d.get(k)]: [None] when the key is absent. *)
Fixpoint get (d : dict) (k : K) : option V :=
  match d with
  | [] => None
  | (k', v') :: d' => if decide (k = k') then Some v' else get d' k
  end.

(** [d[k] = v]: an existing key keeps its place, a new key goes last. *)
Fixpoint set (d : dict) (k : K) (v : V) : dict :=
  match d with
  | [] => [(k, v)]
  | (k', v') :: d' =>
      if decide (k = k') then (k', v) :: d' else (k', v') :: set d' k v
  end.

(** [d.items()], in insertion order. *)
Definition items (d : dict) : list (K * V) := d.

(** [d.keys()] *)
Definition keys (d : dict) : list K := d.*1.
End dict.
Global Arguments dict : clear implicits.
End PyDict.

(** ** [create_vocab] *)

Definition create_vocab (tokenized_corpus : list (list string))
  : PyDict.dict string nat * PyDict.dict nat string :=
  let unique_words := py_set (py_sum tokenized_corpus []) in
  let token2id :=
    foldl (λ token2id token, PyDict.set token2id token (PyDict.len token2id))
          PyDict.empty (sorted unique_words) in
  let id2token :=
    foldl (λ id2token '(k, v), PyDict.set id2token v k)
          PyDict.empty (PyDict.items token2id) in
  (token2id, id2token).

(** The distinct tokens of a corpus, as the specification speaks of them. *)
Definition distinct_tokens (corpus : list (list string)) : gset string :=
  list_to_set (concat corpus).

(** ** Exceptions, results and the trace of library calls *)

Inductive exn : Type :=
  | AssertionError (msg : string)
  | SyntaxError (msg : string)
  | KeyError (key : string)
  | LibraryError (cls msg : string).

Inductive result (A : Type) : Type :=
  | Return (a : A)
  | Raise (e : exn).
Global Arguments Return {A} a.
Global Arguments Raise {A} e.

(** A call that leaves the repository. *)
Inductive event : Type :=
  | EvAstParse (source : string)
  | EvTokenize (source : string)
  | EvLoadDataset (path name : string).

(** A computation: the library calls made so far, and how it ended. *)
Definition M (A : Type) : Type := list event * result A.

Definition ret {A} (a : A) : M A := ([], Return a).
Definition raise {A} (e : exn) : M A := ([], Raise e).

Definition bind {A B} (c : M A) (k : A → M B) : M B :=
  match c with
  | (tr, Raise e) => (tr, Raise e)
  | (tr, Return a) => let '(tr', r) := k a in (tr ++ tr', r)
  end.

(** A library call: logged, then its outcome. *)
Definition call {A} (ev : event) (r : result A) : M A := ([ev], r).

(** A step inside the program, with no library call. *)
Definition step {A} (r : result A) : M A := ([], r).

(** [assert cond, msg], with assertions enabled (the interpreter's
    default). *)
Definition py_assert (cond : bool) (msg : string) : M unit :=
  if cond then ret tt else raise (AssertionError msg).

Global Instance M_ret : MRet M := @ret.
Global Instance M_bind : MBind M := λ A B k c, bind c k.

(** ** The tokens of [tokenize] *)

(** The token categories of the [token] module that [tokenize] reports
    (operators and punctuation all come as [OP]). *)
Inductive token_type : Type :=
  | ENDMARKER | NAME | NUMBER | STRING | NEWLINE | INDENT | DEDENT | OP
  | TYPE_IGNORE | TYPE_COMMENT | SOFT_KEYWORD
  | FSTRING_START | FSTRING_MIDDLE | FSTRING_END
  | ERRORTOKEN | COMMENT | NL | ENCODING.

Global Instance token_type_eq_dec : EqDecision token_type.
Proof. solve_decision. Defined.

(** [tokenize.TokenInfo]: positions are (row, column) pairs. *)
Record TokenInfo : Type := mkTokenInfo {
  tok_type : token_type;
  tok_string : string;
  tok_start : nat * nat;
  tok_end : nat * nat;
  tok_line : string;
}.

(** What iterating a generator to its end gives: the items it yields and,
    when it stops by raising, the exception. *)
Definition generator (A : Type) : Type := list A * option exn.

(** [[f(x) for x in g if p(x)]]: the list is built only when the generator
    runs to its end; an exception on the way leaves no list. *)
Definition list_comprehension {A B} (f : A → B) (P : A → Prop)
    `{∀ x, Decision (P x)} (g : generator A) : result (list B) :=
  match g with
  | (xs, None) => Return (f <$> filter P xs)
  | (_, Some e) => Raise e
  end.

(** [str.encode("utf-8")]: strings are already their UTF-8 bytes. *)
Definition encode_utf8 (s : string) : string := s.

(** Position order in the source text: row first, then column. *)
Definition pos_le (p q : nat * nat) : Prop :=
  p.1 < q.1 ∨ (p.1 = q.1 ∧ p.2 ≤ q.2).

Definition tok_before (a b : TokenInfo) : Prop :=
  pos_le (tok_start a) (tok_start b).

(** ** [get_token_stream] *)

Section tokenizer.
(** [ast.parse] and [tokenize.tokenize] of the Python standard library. *)
Context {Ast : Type}.
Variable ast_parse : string → result Ast.
Variable tokenize_tokenize : string → generator TokenInfo.

Definition useless_token_type : list token_type :=
  [COMMENT; NEWLINE; NL; INDENT; DEDENT; ENCODING; STRING].

Definition get_token_stream (code : string) (language : string)
  : M (list string) :=
  py_assert (bool_decide (language = "python"))
            "Only support python for now" ;;
  parse_tree ← call (EvAstParse code) (ast_parse code) ;
  let origin_tokens := tokenize_tokenize (encode_utf8 code) in
  token_as_strlist ←
    call (EvTokenize (encode_utf8 code))
         (list_comprehension tok_string
            (λ token, tok_type token ∉ useless_token_type)
            origin_tokens) ;
  mret token_as_strlist.
End tokenizer.

(** The default of the [language] parameter of both functions. *)
Definition default_language : string := "python".

(** ** [get_code] *)

(** A record of a dataset: field name to value. *)
Abbreviation Row V := (gmap string V).
(** [datasets.Dataset]: the records of a split, in their native order. *)
Abbreviation Dataset V := (list (Row V)).
(** [datasets.DatasetDict]: split name to split. *)
Abbreviation DatasetDict V := (gmap string (Dataset V)).

Section loader.
(** Field values of dataset records. *)
Context {V : Type}.

(** [datasets.load_dataset(path, name)]. *)
Variable load_dataset : string → string → result (DatasetDict V).

(** [raw_datasets[partition]] *)
Definition datasetdict_getitem (dd : DatasetDict V) (k : string)
  : result (Dataset V) :=
  match dd !! k with
  | Some ds => Return ds
  | None => Raise (KeyError k)
  end.

(** [dataset[column]]: the column's value in every record. *)
Definition dataset_getitem (ds : Dataset V) (column : string)
  : result (list V) :=
  match mapM (λ row : Row V, row !! column) ds with
  | Some vs => Return vs
  | None => Raise (KeyError column)
  end.

Definition get_code (partition : string) (language : string)
  : M (list V) :=
  raw_datasets ←
    call (EvLoadDataset "code_search_net" language)
         (load_dataset "code_search_net" language) ;
  split ← step (datasetdict_getitem raw_datasets partition) ;
  step (dataset_getitem split "whole_func_string").
End loader.

(** ** A worked input

    The function of the specification's scenario, and stand-ins for the
    library calls that answer on it as CPython does. *)

Definition newline : string := String (Ascii.ascii_of_nat 10) "".

(** ["def f(x):\n    return x"] *)
Definition def_f_source : string :=
  "def f(x):" +:+ newline +:+ "    return x".

(** The stream [tokenize] yields for [def_f_source]. *)
Definition def_f_tokens : list TokenInfo :=
  let line1 := "def f(x):" +:+ newline in
  let line2 := "    return x" in
  [ mkTokenInfo ENCODING "utf-8" (0, 0) (0, 0) "";
    mkTokenInfo NAME "def" (1, 0) (1, 3) line1;
    mkTokenInfo NAME "f" (1, 4) (1, 5) line1;
    mkTokenInfo OP "(" (1, 5) (1, 6) line1;
    mkTokenInfo NAME "x" (1, 6) (1, 7) line1;
    mkTokenInfo OP ")" (1, 7) (1, 8) line1;
    mkTokenInfo OP ":" (1, 8) (1, 9) line1;
    mkTokenInfo NEWLINE newline (1, 9) (1, 10) line1;
    mkTokenInfo INDENT "    " (2, 0) (2, 4) line2;
    mkTokenInfo NAME "return" (2, 4) (2, 10) line2;
    mkTokenInfo NAME "x" (2, 11) (2, 12) line2;
    mkTokenInfo NEWLINE "" (2, 12) (2, 13) line2;
    mkTokenInfo DEDENT "" (3, 0) (3, 0) "";
    mkTokenInfo ENDMARKER "" (3, 0) (3, 0) "" ].

(** A parser that accepts [def_f_source] only. *)
Definition stub_ast_parse (source : string) : result unit :=
  if decide (source = def_f_source) then Return tt
  else Raise (SyntaxError "invalid syntax").

(** A tokenizer that knows [def_f_source]; elsewhere it yields the encoding
    and the end marker. *)
Definition stub_tokenize (source : string) : generator TokenInfo :=
  if decide (source = def_f_source) then (def_f_tokens, None)
  else ([ mkTokenInfo ENCODING "utf-8" (0, 0) (0, 0) "";
          mkTokenInfo ENDMARKER "" (1, 0) (1, 0) "" ], None).

(** A dataset source with one language and two splits. *)
Definition stub_load_dataset (path name : string)
  : result (DatasetDict string) :=
  if decide (path = "code_search_net" ∧ name = "python") then
    Return (<["train" :=
               [ {[ "func_name" := "f"; "whole_func_string" := def_f_source ]};
                 {[ "func_name" := "g"; "whole_func_string" := "def g(): pass" ]} ]]>
            (<["test" := []]> ∅))
  else Raise (LibraryError "ValueError" "BuilderConfig not found").

(** * Properties *)

(** ** The order on strings *)

Section str_order.
Lemma compare_cons a s b t :
  String.compare (String a s) (String b t)
  = match N.compare (Ascii.N_of_ascii a) (Ascii.N_of_ascii b) with
    | Eq => String.compare s t
    | c => c
    end.
Proof. simpl. unfold Ascii.compare. by destruct (N.compare _ _). Qed.

Lemma compare_refl s : String.compare s s = Eq.
Proof.
  induction s as [|a s IH]; [done|].
  by rewrite compare_cons, N.compare_refl.
Qed.

Lemma compare_Eq s t : String.compare s t = Eq ↔ s = t.
Proof.
  split; [apply String.compare_eq_iff|intros ->; apply compare_refl].
Qed.

Lemma compare_Lt_trans s t u :
  String.compare s t = Lt → String.compare t u = Lt →
  String.compare s u = Lt.
Proof.
  revert t u. induction s as [|a s IH]; intros [|b t] [|c u]; try done.
  rewrite !compare_cons.
  destruct (N.compare_spec (Ascii.N_of_ascii a) (Ascii.N_of_ascii b))
    as [Hab|Hab|Hab],
    (N.compare_spec (Ascii.N_of_ascii b) (Ascii.N_of_ascii c))
    as [Hbc|Hbc|Hbc]; try done; intros H1 H2.
  - rewrite Hab, Hbc, N.compare_refl. eauto.
  - rewrite Hab. by apply N.compare_lt_iff in Hbc as ->.
  - rewrite <-Hbc. by apply N.compare_lt_iff in Hab as ->.
  - assert (Ascii.N_of_ascii a < Ascii.N_of_ascii c)%N as Hac by lia.
    by apply N.compare_lt_iff in Hac as ->.
Qed.

Lemma str_le_alt s t : str_le s t ↔ str_lt s t ∨ s = t.
Proof.
  unfold str_le, str_lt, String.leb, String.ltb. rewrite <-compare_Eq.
  destruct (String.compare s t); intuition congruence.
Qed.

Lemma str_lt_irrefl s : ¬ str_lt s s.
Proof. unfold str_lt, String.ltb. by rewrite compare_refl. Qed.

Lemma str_lt_alt s t : str_lt s t ↔ str_le s t ∧ s ≠ t.
Proof.
  rewrite str_le_alt. split.
  - intros Hlt. split; [by left|]. intros ->. by apply str_lt_irrefl in Hlt.
  - intros [[Hlt| ->] Hne]; [done|by destruct Hne].
Qed.

Global Instance str_le_refl : Reflexive str_le.
Proof. intros s. apply str_le_alt. by right. Qed.

Global Instance str_lt_trans : Transitive str_lt.
Proof.
  intros s t u. unfold str_lt, String.ltb.
  destruct (String.compare s t) eqn:Hst; try done.
  destruct (String.compare t u) eqn:Htu; try done.
  by rewrite (compare_Lt_trans s t u).
Qed.

Global Instance str_le_trans : Transitive str_le.
Proof.
  intros s t u. rewrite !str_le_alt.
  intros [Hst| ->] [Htu| ->]; eauto. left. by transitivity t.
Qed.

Global Instance str_le_total : Total str_le.
Proof. intros s t. apply String.leb_total. Qed.

Global Instance str_le_antisym : AntiSymm (=) str_le.
Proof. intros s t. apply String.leb_antisym. Qed.
End str_order.

(** ** Python's built-ins *)

Lemma py_sum_concat {A} (xs : list (list A)) (start : list A) :
  py_sum xs start = start ++ concat xs.
Proof.
  unfold py_sum. revert start.
  induction xs as [|x xs IH]; intros start; simpl.
  - by rewrite app_nil_r.
  - by rewrite IH, app_assoc.
Qed.

Lemma elem_of_py_set l t : t ∈ py_set l ↔ t ∈ l.
Proof. unfold py_set. apply elem_of_list_to_set. Qed.

Section sorted.
Implicit Types s : gset string.

Lemma sorted_Permutation s : sorted s ≡ₚ elements s.
Proof. apply merge_sort_Permutation. Qed.

Lemma elem_of_sorted s t : t ∈ sorted s ↔ t ∈ s.
Proof. by rewrite sorted_Permutation, elem_of_elements. Qed.

Lemma NoDup_sorted s : NoDup (sorted s).
Proof. rewrite sorted_Permutation. apply NoDup_elements. Qed.

Lemma length_sorted s : length (sorted s) = size s.
Proof. by rewrite sorted_Permutation. Qed.

Lemma StronglySorted_sorted s : StronglySorted str_le (sorted s).
Proof. apply (StronglySorted_merge_sort _). Qed.

(** The result of [sorted] is fixed by the set alone: any duplicate-free
    ascending enumeration of the set is [sorted s]. *)
Lemma sorted_unique s l :
  StronglySorted str_le l → NoDup l → (∀ t, t ∈ l ↔ t ∈ s) → l = sorted s.
Proof.
  intros Hl Hnd Hel.
  apply (StronglySorted_unique str_le); [done|apply StronglySorted_sorted|].
  apply NoDup_Permutation; [done|apply NoDup_sorted|].
  intros t. by rewrite Hel, elem_of_sorted.
Qed.
End sorted.

Lemma StronglySorted_lookup_lt {A} (R : relation A) (l : list A) i j x y :
  StronglySorted R l → l !! i = Some x → l !! j = Some y → i < j → R x y.
Proof.
  intros Hl. revert i j.
  induction Hl as [|z l Hl IH Hz]; intros i j Hi Hj Hij; [done|].
  destruct j as [|j]; [lia|]. simpl in Hj.
  destruct i as [|i]; simpl in Hi.
  - injection Hi as ->. eapply Forall_forall; [exact Hz|].
    by eapply list_elem_of_lookup_2.
  - apply (IH i j); [done..|lia].
Qed.

(** ** Dictionaries *)

Section dict_facts.
Context {K V : Type} `{EqDecision K}.
Implicit Types d : PyDict.dict K V.

Lemma dict_get_None d k : PyDict.get d k = None ↔ k ∉ PyDict.keys d.
Proof.
  unfold PyDict.keys. induction d as [|[k' v'] d IH]; simpl.
  - split; [intros _; apply not_elem_of_nil|done].
  - rewrite not_elem_of_cons. case_decide as Hk; [|tauto].
    split; [done|]. by intros [? _].
Qed.

Lemma dict_get_elem_of d k v :
  NoDup (PyDict.keys d) → PyDict.get d k = Some v ↔ (k, v) ∈ d.
Proof.
  unfold PyDict.keys. induction d as [|[k' v'] d IH]; simpl; intros Hnd.
  - split; [done|]. by intros ?%elem_of_nil.
  - apply NoDup_cons in Hnd as [Hk' Hnd]. rewrite elem_of_cons.
    case_decide as Hk.
    + subst k'. split; [intros [= ->]; by left|].
      intros [[= ->]|Hin]; [done|]. destruct Hk'.
      apply list_elem_of_fmap. by exists (k, v).
    + rewrite (IH Hnd). split; [by right|]. by intros [[= -> ->]|?].
Qed.

(** Assigning to an absent key appends the item. *)
Lemma dict_set_fresh d k v :
  k ∉ PyDict.keys d → PyDict.set d k v = d ++ [(k, v)].
Proof.
  unfold PyDict.keys. induction d as [|[k' v'] d IH]; simpl; [done|].
  rewrite not_elem_of_cons. intros [Hne Hk].
  rewrite decide_False by done. by rewrite IH.
Qed.
End dict_facts.

(** The loop that numbers the sorted tokens. *)
Lemma number_tokens (acc : PyDict.dict string nat) (s : list string) :
  NoDup (PyDict.keys acc ++ s) →
  foldl (λ token2id token, PyDict.set token2id token (PyDict.len token2id))
        acc s
  = acc ++ zip s (seq (length acc) (length s)).
Proof.
  revert acc. induction s as [|t s IH]; intros acc Hnd; simpl.
  - by rewrite app_nil_r.
  - assert (t ∉ PyDict.keys acc) as Ht.
    { apply NoDup_app in Hnd as (_ & Hd & _). intros Hin.
      apply (Hd t Hin). by left. }
    rewrite dict_set_fresh by done. rewrite IH.
    + rewrite length_app. simpl. rewrite Nat.add_1_r.
      by rewrite <-app_assoc.
    + unfold PyDict.keys in *. rewrite fmap_app. simpl.
      by rewrite <-app_assoc.
Qed.

(** The comprehension that inverts a dictionary with distinct values. *)
Lemma invert_items (acc : PyDict.dict nat string) (its : list (string * nat)) :
  NoDup (PyDict.keys acc ++ its.*2) →
  foldl (λ id2token '(k, v), PyDict.set id2token v k) acc its
  = acc ++ (prod_swap <$> its).
Proof.
  revert acc. induction its as [|[k v] its IH]; intros acc Hnd; simpl.
  - by rewrite app_nil_r.
  - assert (v ∉ PyDict.keys acc) as Hv.
    { apply NoDup_app in Hnd as (_ & Hd & _). intros Hin.
      apply (Hd v Hin). by left. }
    rewrite dict_set_fresh by done. rewrite IH.
    + by rewrite <-app_assoc.
    + unfold PyDict.keys in *. rewrite fmap_app. simpl.
      by rewrite <-app_assoc.
Qed.

Lemma fst_zip_seq {A} (s : list A) a : (zip s (seq a (length s))).*1 = s.
Proof. apply fst_zip. by rewrite length_seq. Qed.

Lemma snd_zip_seq {A} (s : list A) a :
  (zip s (seq a (length s))).*2 = seq a (length s).
Proof. apply snd_zip. by rewrite length_seq. Qed.

Lemma swap_zip_seq {A} (s : list A) a :
  prod_swap <$> zip s (seq a (length s)) = zip (seq a (length s)) s.
Proof.
  revert a. induction s as [|x s IH]; intros a; simpl; [done|].
  by rewrite IH.
Qed.

Lemma elem_of_zip_seq {A} (s : list A) a x i :
  (x, i) ∈ zip s (seq a (length s)) ↔ a ≤ i ∧ s !! (i - a) = Some x.
Proof.
  revert a. induction s as [|y s IH]; intros a; simpl.
  - split; [by intros ?%elem_of_nil|by intros [_ ?]].
  - rewrite elem_of_cons, IH. split.
    + intros [[= -> ->]|[Hle Hx]].
      * split; [lia|]. by rewrite Nat.sub_diag.
      * split; [lia|]. by replace (i - a) with (S (i - S a)) by lia.
    + intros [Hle Hx]. destruct (i - a) as [|n] eqn:Hn; simpl in Hx.
      * left. injection Hx as ->. f_equal. lia.
      * right. split; [lia|]. by replace (i - S a) with n by lia.
Qed.

(** What [create_vocab] computes, in closed form. *)
Lemma create_vocab_closed_form corpus :
  let s := sorted (distinct_tokens corpus) in
  create_vocab corpus
  = (zip s (seq 0 (length s)), zip (seq 0 (length s)) s).
Proof.
  intros s. unfold create_vocab, PyDict.items, PyDict.empty.
  rewrite py_sum_concat. simpl.
  change (py_set (concat corpus)) with (distinct_tokens corpus). fold s.
  assert (NoDup s) as Hnd by apply NoDup_sorted.
  rewrite number_tokens by done. simpl.
  rewrite invert_items; simpl.
  - by rewrite swap_zip_seq.
  - rewrite snd_zip_seq. apply NoDup_seq.
Qed.

(** ** [create_vocab] *)

Section vocabulary.
Variable corpus : list (list string).

Let s := sorted (distinct_tokens corpus).

Lemma elem_of_distinct_tokens t :
  t ∈ distinct_tokens corpus ↔ ∃ doc, doc ∈ corpus ∧ t ∈ doc.
Proof.
  unfold distinct_tokens. rewrite elem_of_list_to_set.
  induction corpus as [|d ds IH]; simpl.
  - split; [by intros ?%elem_of_nil|]. by intros (? & ?%elem_of_nil & _).
  - rewrite elem_of_app, IH. split.
    + intros [Hd|(doc & Hdoc & Ht)].
      * exists d. split; [by left|done].
      * exists doc. split; [by right|done].
    + intros (doc & [->|Hdoc]%elem_of_cons & Ht); [by left|].
      right. by exists doc.
Qed.

Lemma token2id_keys : PyDict.keys (create_vocab corpus).1 = s.
Proof.
  rewrite create_vocab_closed_form. unfold PyDict.keys. simpl.
  apply fst_zip_seq.
Qed.

Lemma id2token_keys :
  PyDict.keys (create_vocab corpus).2 = seq 0 (length s).
Proof.
  rewrite create_vocab_closed_form. unfold PyDict.keys. simpl.
  apply fst_zip. by rewrite length_seq.
Qed.

(** [token2id[t] == i] exactly when [t] is the [i]-th token in sorted
    order. *)
Lemma token2id_lookup t i :
  PyDict.get (create_vocab corpus).1 t = Some i ↔ s !! i = Some t.
Proof.
  rewrite dict_get_elem_of
    by (rewrite token2id_keys; apply NoDup_sorted).
  rewrite create_vocab_closed_form. simpl. fold s.
  rewrite elem_of_zip_seq, Nat.sub_0_r. split; [by intros [_ ?]|].
  intros ?. split; [lia|done].
Qed.

Lemma id2token_lookup i t :
  PyDict.get (create_vocab corpus).2 i = Some t ↔ s !! i = Some t.
Proof.
  rewrite dict_get_elem_of
    by (rewrite id2token_keys; apply NoDup_seq).
  rewrite create_vocab_closed_form. simpl. fold s.
  rewrite <-swap_zip_seq.
  rewrite (list_elem_of_fmap_inj prod_swap _ (t, i)).
  rewrite elem_of_zip_seq, Nat.sub_0_r. split; [by intros [_ ?]|].
  intros ?. split; [lia|done].
Qed.
End vocabulary.

(** [create_vocab([["a","b"], ["b","c"]])] *)
Example create_vocab_ab_bc :
  create_vocab [["a"; "b"]; ["b"; "c"]]
  = ([("a", 0); ("b", 1); ("c", 2)], [(0, "a"); (1, "b"); (2, "c")]).
Proof. vm_compute. reflexivity. Qed.

(** C1. [create_vocab] returns [(token2id, id2token)] where the keys of
    [token2id] are exactly the distinct tokens of the corpus, each once;
    the ids ascend with the lexicographic order of the token text;
    [token2id] is a bijection from the distinct tokens onto
    [0, number of distinct tokens) (so the ids start at 0 and leave no
    gap); and [id2token] is its exact inverse:
    [id2token[token2id[t]] == t]. *)
Theorem create_vocab_bijection (corpus : list (list string)) :
  let token2id := (create_vocab corpus).1 in
  let id2token := (create_vocab corpus).2 in
  let n := size (distinct_tokens corpus) in
  (∀ t, is_Some (PyDict.get token2id t) ↔ ∃ doc, doc ∈ corpus ∧ t ∈ doc) ∧
  NoDup (PyDict.keys token2id) ∧
  PyDict.len token2id = n ∧
  (∀ t1 t2 i1 i2,
     PyDict.get token2id t1 = Some i1 → PyDict.get token2id t2 = Some i2 →
     (i1 < i2 ↔ str_lt t1 t2)) ∧
  (∀ t i, PyDict.get token2id t = Some i → i < n) ∧
  (∀ i, i < n → ∃ t, PyDict.get token2id t = Some i) ∧
  (∀ t1 t2 i,
     PyDict.get token2id t1 = Some i → PyDict.get token2id t2 = Some i →
     t1 = t2) ∧
  NoDup (PyDict.keys id2token) ∧
  PyDict.len id2token = n ∧
  (∀ t i, PyDict.get token2id t = Some i ↔ PyDict.get id2token i = Some t) ∧
  (∀ t i, PyDict.get token2id t = Some i →
     PyDict.get id2token i = Some t).
Proof.
  intros token2id id2token n. subst token2id id2token n.
  set (s := sorted (distinct_tokens corpus)).
  assert (length s = size (distinct_tokens corpus)) as Hlen
    by apply length_sorted.
  assert (∀ i j x y, s !! i = Some x → s !! j = Some y → i < j → str_lt x y)
    as Hmono.
  { intros i j x y Hi Hj Hij. apply str_lt_alt. split.
    - by apply (StronglySorted_lookup_lt str_le s i j);
        [apply StronglySorted_sorted|..].
    - intros ->.
      pose proof (NoDup_lookup s i j y (NoDup_sorted _) Hi Hj). lia. }
  split_and!.
  - intros t. rewrite <-elem_of_distinct_tokens, <-elem_of_sorted.
    rewrite list_elem_of_lookup. unfold is_Some.
    by setoid_rewrite token2id_lookup.
  - rewrite token2id_keys. apply NoDup_sorted.
  - unfold PyDict.len. rewrite <-Hlen.
    transitivity (length (PyDict.keys (create_vocab corpus).1)).
    + unfold PyDict.keys. by rewrite length_fmap.
    + by rewrite token2id_keys.
  - intros t1 t2 i1 i2 H1%token2id_lookup H2%token2id_lookup. split.
    + intros Hlt. by eapply Hmono.
    + intros Hlt.
      destruct (Nat.lt_trichotomy i1 i2) as [?|[->|Hgt]]; [done|..].
      * assert (t1 = t2) as -> by congruence. by apply str_lt_irrefl in Hlt.
      * pose proof (Hmono _ _ _ _ H2 H1 Hgt) as Hlt'.
        destruct (str_lt_irrefl t1). by transitivity t2.
  - intros t i Hi%token2id_lookup. rewrite <-Hlen.
    by eapply lookup_lt_Some.
  - intros i Hi. rewrite <-Hlen in Hi.
    apply lookup_lt_is_Some in Hi as [t Ht]. exists t.
    by apply token2id_lookup.
  - intros t1 t2 i H1%token2id_lookup H2%token2id_lookup. congruence.
  - rewrite id2token_keys. apply NoDup_seq.
  - unfold PyDict.len. rewrite <-Hlen.
    transitivity (length (PyDict.keys (create_vocab corpus).2)).
    + unfold PyDict.keys. by rewrite length_fmap.
    + by rewrite id2token_keys, length_seq.
  - intros t i. by rewrite token2id_lookup, id2token_lookup.
  - intros t i Hi. by apply id2token_lookup, token2id_lookup.
Qed.

(** The mappings depend on the corpus through its set of distinct tokens
    only. *)
Lemma create_vocab_of_distinct_tokens c1 c2 :
  distinct_tokens c1 = distinct_tokens c2 → create_vocab c1 = create_vocab c2.
Proof. intros Heq. by rewrite !create_vocab_closed_form, Heq. Qed.

Lemma distinct_tokens_Permutation c1 c2 :
  c1 ≡ₚ c2 → distinct_tokens c1 = distinct_tokens c2.
Proof.
  intros Hp. apply set_eq. intros t.
  rewrite !elem_of_distinct_tokens. by setoid_rewrite Hp.
Qed.

(** Reordering the documents changes nothing. *)
Lemma create_vocab_Permutation c1 c2 :
  c1 ≡ₚ c2 → create_vocab c1 = create_vocab c2.
Proof.
  intros Hp. by apply create_vocab_of_distinct_tokens,
    distinct_tokens_Permutation.
Qed.

(** Repeating documents changes nothing. *)
Lemma create_vocab_duplicate c1 c2 :
  c2 ⊆ c1 → create_vocab (c1 ++ c2) = create_vocab c1.
Proof.
  intros Hsub. apply create_vocab_of_distinct_tokens, set_eq. intros t.
  rewrite !elem_of_distinct_tokens. split.
  - intros (doc & [?|?%Hsub]%elem_of_app & Ht); by exists doc.
  - intros (doc & Hdoc & Ht). exists doc. split; [|done].
    apply elem_of_app. by left.
Qed.

(** C5. Two corpora with the same distinct tokens (the same corpus with its
    documents reordered or repeated, for one) get identical [token2id] and
    [id2token]. *)
Theorem create_vocab_deterministic (c1 c2 : list (list string)) :
  (∀ t, (∃ doc, doc ∈ c1 ∧ t ∈ doc) ↔ (∃ doc, doc ∈ c2 ∧ t ∈ doc)) →
  create_vocab c1 = create_vocab c2.
Proof.
  intros Hsame. apply create_vocab_of_distinct_tokens, set_eq. intros t.
  by rewrite !elem_of_distinct_tokens.
Qed.

Lemma create_vocab_deterministic_witness :
  create_vocab [["a"; "b"]; ["b"; "c"]]
  = create_vocab [["c"; "b"; "b"]; []; ["a"]; ["b"; "a"]].
Proof.
  apply (create_vocab_deterministic
           [["a"; "b"]; ["b"; "c"]] [["c"; "b"; "b"]; []; ["a"]; ["b"; "a"]]).
  intros t. rewrite <-!elem_of_distinct_tokens.
  by replace (distinct_tokens [["a"; "b"]; ["b"; "c"]])
    with (distinct_tokens [["c"; "b"; "b"]; []; ["a"]; ["b"; "a"]])
    by (by vm_compute).
Defined.

(** C7. [create_vocab] returns a pair of mappings for every collection of
    string sequences; empty token sequences are accepted and add nothing;
    the empty collection gives two empty mappings. *)
Theorem create_vocab_total :
  (∀ corpus, ∃ token2id id2token,
     create_vocab corpus = (token2id, id2token) ∧
     PyDict.len token2id = size (distinct_tokens corpus) ∧
     PyDict.len id2token = size (distinct_tokens corpus)) ∧
  (∀ c1 c2, create_vocab (c1 ++ [] :: c2) = create_vocab (c1 ++ c2)) ∧
  (∀ n, create_vocab (replicate n []) = (PyDict.empty, PyDict.empty)) ∧
  create_vocab [] = (PyDict.empty, PyDict.empty).
Proof.
  split_and!.
  - intros corpus.
    exists (create_vocab corpus).1, (create_vocab corpus).2.
    split; [by destruct (create_vocab corpus)|].
    rewrite create_vocab_closed_form. unfold PyDict.len. simpl.
    rewrite !length_zip_with, !length_seq, !length_sorted. lia.
  - intros c1 c2. apply create_vocab_of_distinct_tokens.
    unfold distinct_tokens. by rewrite !concat_app.
  - intros n. rewrite create_vocab_closed_form.
    assert (distinct_tokens (replicate n []) = ∅) as ->; [|done].
    unfold distinct_tokens. by induction n.
  - done.
Qed.

(** ** The computation monad *)

Lemma bind_Raise {A B} tr e (k : A → M B) :
  ((tr, Raise e) : M A) ≫= k = (tr, Raise e).
Proof. done. Qed.

Lemma bind_Return {A B} tr a (k : A → M B) :
  ((tr, Return a) : M A) ≫= k = (tr ++ (k a).1, (k a).2).
Proof. unfold mbind, M_bind, bind. by destruct (k a). Qed.

(** ** [get_token_stream] *)

Lemma StronglySorted_sublist {A} (R : relation A) (l1 l2 : list A) :
  StronglySorted R l2 → l1 `sublist_of` l2 → StronglySorted R l1.
Proof.
  intros Hl2 Hsub. induction Hsub as [|x l1 l2 Hsub IH|x l1 l2 Hsub IH].
  - constructor.
  - apply StronglySorted_inv in Hl2 as [Hl2 Hx]. constructor; [by apply IH|].
    eapply Forall_forall. intros y Hy%(sublist_subseteq _ _ Hsub).
    by eapply Forall_forall in Hx.
  - apply StronglySorted_inv in Hl2 as [Hl2 _]. by apply IH.
Qed.

(** The returned texts depend on the categories and texts of the stream
    only. *)
Lemma texts_of_retained (toks : list TokenInfo) :
  tok_string <$> filter (λ token, tok_type token ∉ useless_token_type) toks
  = snd <$> filter (λ p, p.1 ∉ useless_token_type)
              ((λ token, (tok_type token, tok_string token)) <$> toks).
Proof.
  induction toks as [|token toks IH]; [done|].
  rewrite fmap_cons, !filter_cons. cbn [fst].
  case_decide; rewrite ?fmap_cons; by rewrite IH.
Qed.

Section tokenizer_facts.
Context {Ast : Type}.
Variable ast_parse : string → result Ast.
Variable tokenize_tokenize : string → generator TokenInfo.

Local Abbreviation get_token_stream :=
  (get_token_stream ast_parse tokenize_tokenize).

(** A run on parseable text whose tokenization runs to its end. *)
Lemma get_token_stream_Return code tree toks :
  ast_parse code = Return tree →
  tokenize_tokenize code = (toks, None) →
  get_token_stream code "python"
  = ([EvAstParse code; EvTokenize code],
     Return (tok_string <$>
               filter (λ token, tok_type token ∉ useless_token_type) toks)).
Proof.
  intros Hparse Htok. unfold get_token_stream, encode_utf8.
  rewrite bool_decide_true by done. simpl.
  unfold call. rewrite Hparse, Htok. reflexivity.
Qed.

(** Every successful run is such a run. *)
Lemma get_token_stream_Return_inv code language tr out :
  get_token_stream code language = (tr, Return out) →
  language = "python" ∧
  ∃ tree toks, ast_parse code = Return tree ∧
    tokenize_tokenize code = (toks, None) ∧
    out = tok_string <$>
            filter (λ token, tok_type token ∉ useless_token_type) toks.
Proof.
  unfold get_token_stream, encode_utf8, call.
  case_bool_decide as Hlang; simpl; [|done].
  destruct (ast_parse code) as [tree|e] eqn:Hparse; simpl; [|done].
  destruct (tokenize_tokenize code) as [toks [e|]] eqn:Htok; simpl;
    [done|].
  intros [= <- <-]. split; [done|]. by exists tree, toks.
Qed.
Lemma elem_of_useless_token_type ty :
  ty ∈ useless_token_type ↔
  ty = COMMENT ∨ ty = STRING ∨ ty = NEWLINE ∨ ty = NL ∨ ty = INDENT ∨
  ty = DEDENT ∨ ty = ENCODING.
Proof.
  unfold useless_token_type. rewrite !elem_of_cons, elem_of_nil. tauto.
Qed.

(** C2. On valid Python whose tokenization runs to its end,
    [get_token_stream] returns the literal texts of a list [kept] of tokens
    of the stream such that no token of [kept] is a comment, a string
    literal or a layout marker (NEWLINE, NL, INDENT, DEDENT, ENCODING), and
    such that for every other category the tokens of that category in
    [kept] are exactly those of the stream. *)
Theorem get_token_stream_discards code tree toks :
  ast_parse code = Return tree →
  tokenize_tokenize code = (toks, None) →
  ∃ kept,
    get_token_stream code "python"
    = ([EvAstParse code; EvTokenize code], Return (tok_string <$> kept)) ∧
    (∀ token, token ∈ kept →
       tok_type token ≠ COMMENT ∧ tok_type token ≠ STRING ∧
       tok_type token ≠ NEWLINE ∧ tok_type token ≠ NL ∧
       tok_type token ≠ INDENT ∧ tok_type token ≠ DEDENT ∧
       tok_type token ≠ ENCODING) ∧
    (∀ ty, ty ∉ [COMMENT; STRING; NEWLINE; NL; INDENT; DEDENT; ENCODING] →
       filter (λ token, tok_type token = ty) kept
       = filter (λ token, tok_type token = ty) toks).
Proof.
  intros Hparse Htok.
  exists (filter (λ token, tok_type token ∉ useless_token_type) toks).
  split_and!.
  - by eapply get_token_stream_Return.
  - intros token [Hty _]%list_elem_of_filter.
    rewrite elem_of_useless_token_type in Hty. tauto.
  - intros ty Hty. rewrite list_filter_filter. apply list_filter_iff.
    intros token. split; [by intros [? _]|]. intros <-. split; [done|].
    rewrite elem_of_useless_token_type.
    rewrite !elem_of_cons, elem_of_nil in Hty. tauto.
Qed.

(** C3. When [ast.parse] rejects the text with a syntax error,
    [get_token_stream] raises that syntax error and returns no list; the
    parse is the only library call made, the tokenizer is never run. *)
Theorem get_token_stream_syntax_error code msg :
  ast_parse code = Raise (SyntaxError msg) →
  get_token_stream code "python"
  = ([EvAstParse code], Raise (SyntaxError msg)).
Proof.
  intros Hparse. unfold get_token_stream.
  rewrite bool_decide_true by done. simpl.
  unfold call. by rewrite Hparse.
Qed.

(** C4. With a language other than ["python"], whatever the code,
    [get_token_stream] raises the assertion's error at once: no library
    call is made, neither parsing nor tokenization. *)
Theorem get_token_stream_unsupported_language code language :
  language ≠ "python" →
  get_token_stream code language
  = ([], Raise (AssertionError "Only support python for now")).
Proof.
  intros Hlang. unfold get_token_stream.
  by rewrite bool_decide_false by done.
Qed.

(** C6. On valid Python whose tokenization runs to its end, the returned
    texts are those of a subsequence of the token stream: tokens are
    removed, never reordered.  So when the stream is in source order (by
    start position), the retained tokens are too. *)
Theorem get_token_stream_order code tree toks :
  ast_parse code = Return tree →
  tokenize_tokenize code = (toks, None) →
  ∃ kept,
    get_token_stream code "python"
    = ([EvAstParse code; EvTokenize code], Return (tok_string <$> kept)) ∧
    kept `sublist_of` toks ∧
    (StronglySorted tok_before toks → StronglySorted tok_before kept).
Proof.
  intros Hparse Htok.
  exists (filter (λ token, tok_type token ∉ useless_token_type) toks).
  split_and!.
  - by eapply get_token_stream_Return.
  - apply sublist_filter.
  - intros Hsorted. eapply StronglySorted_sublist; [done|].
    apply sublist_filter.
Qed.

(** C8. On ["def f(x):\n    return x"], where the tokenizer yields ENCODING,
    [def f ( x ) :], NEWLINE, INDENT, [return x], NEWLINE, DEDENT and the
    end marker, [get_token_stream] returns
    [["def"; "f"; "("; "x"; ")"; ":"; "return"; "x"; ""]]. *)
Theorem get_token_stream_def_f tree toks :
  ast_parse def_f_source = Return tree →
  tokenize_tokenize def_f_source = (toks, None) →
  (λ token, (tok_type token, tok_string token)) <$> toks
  = [ (ENCODING, "utf-8"); (NAME, "def"); (NAME, "f"); (OP, "(");
      (NAME, "x"); (OP, ")"); (OP, ":"); (NEWLINE, newline);
      (INDENT, "    "); (NAME, "return"); (NAME, "x"); (NEWLINE, "");
      (DEDENT, ""); (ENDMARKER, "") ] →
  get_token_stream def_f_source "python"
  = ([EvAstParse def_f_source; EvTokenize def_f_source],
     Return ["def"; "f"; "("; "x"; ")"; ":"; "return"; "x"; ""]).
Proof.
  intros Hparse Htok Hstream.
  rewrite (get_token_stream_Return _ _ _ Hparse Htok). do 2 f_equal.
  rewrite texts_of_retained, Hstream. by vm_compute.
Qed.

(** C10. Given that a tokenization that runs to its end yields the end
    marker, with empty text, last: whenever [get_token_stream] returns a
    list, the list is not empty and its last element is the empty
    string. *)
Theorem get_token_stream_last code language tr out :
  (∀ toks, tokenize_tokenize code = (toks, None) →
     ∃ toks' endmarker, toks = toks' ++ [endmarker] ∧
       tok_type endmarker = ENDMARKER ∧ tok_string endmarker = "") →
  get_token_stream code language = (tr, Return out) →
  out ≠ [] ∧ last out = Some "".
Proof.
  intros Hend (_ & tree & toks & _ & Htok & ->)%get_token_stream_Return_inv.
  destruct (Hend _ Htok) as (toks' & endmarker & -> & Hty & Hstr).
  rewrite filter_app, filter_cons_True, filter_nil, fmap_app by
    (rewrite Hty, elem_of_useless_token_type; intuition discriminate).
  simpl. rewrite Hstr. split; [|apply last_snoc].
  intros Hnil. by apply app_eq_nil in Hnil as [_ ?].
Qed.
End tokenizer_facts.

Lemma get_token_stream_discards_witness :
  ∃ kept,
    get_token_stream stub_ast_parse stub_tokenize def_f_source "python"
    = ([EvAstParse def_f_source; EvTokenize def_f_source],
       Return (tok_string <$> kept)) ∧
    (∀ token, token ∈ kept →
       tok_type token ≠ COMMENT ∧ tok_type token ≠ STRING ∧
       tok_type token ≠ NEWLINE ∧ tok_type token ≠ NL ∧
       tok_type token ≠ INDENT ∧ tok_type token ≠ DEDENT ∧
       tok_type token ≠ ENCODING) ∧
    (∀ ty, ty ∉ [COMMENT; STRING; NEWLINE; NL; INDENT; DEDENT; ENCODING] →
       filter (λ token, tok_type token = ty) kept
       = filter (λ token, tok_type token = ty) def_f_tokens).
Proof.
  apply (get_token_stream_discards stub_ast_parse stub_tokenize
           def_f_source tt def_f_tokens); reflexivity.
Defined.

Lemma get_token_stream_syntax_error_witness :
  get_token_stream stub_ast_parse stub_tokenize "def f(:" "python"
  = ([EvAstParse "def f(:"], Raise (SyntaxError "invalid syntax")).
Proof.
  apply (get_token_stream_syntax_error stub_ast_parse stub_tokenize
           "def f(:" "invalid syntax").
  reflexivity.
Defined.

Lemma get_token_stream_unsupported_language_witness :
  get_token_stream stub_ast_parse stub_tokenize def_f_source "java"
  = ([], Raise (AssertionError "Only support python for now")).
Proof.
  apply (get_token_stream_unsupported_language stub_ast_parse stub_tokenize
           def_f_source "java").
  discriminate.
Defined.

Lemma get_token_stream_order_witness :
  ∃ kept,
    get_token_stream stub_ast_parse stub_tokenize def_f_source "python"
    = ([EvAstParse def_f_source; EvTokenize def_f_source],
       Return (tok_string <$> kept)) ∧
    kept `sublist_of` def_f_tokens ∧
    (StronglySorted tok_before def_f_tokens →
     StronglySorted tok_before kept).
Proof.
  apply (get_token_stream_order stub_ast_parse stub_tokenize
           def_f_source tt def_f_tokens); reflexivity.
Defined.

Lemma get_token_stream_def_f_witness :
  get_token_stream stub_ast_parse stub_tokenize def_f_source "python"
  = ([EvAstParse def_f_source; EvTokenize def_f_source],
     Return ["def"; "f"; "("; "x"; ")"; ":"; "return"; "x"; ""]).
Proof.
  apply (get_token_stream_def_f stub_ast_parse stub_tokenize tt
           def_f_tokens); reflexivity.
Defined.

Lemma stub_tokenize_endmarker source toks :
  stub_tokenize source = (toks, None) →
  ∃ toks' endmarker, toks = toks' ++ [endmarker] ∧
    tok_type endmarker = ENDMARKER ∧ tok_string endmarker = "".
Proof.
  unfold stub_tokenize. case_decide; intros [= <-].
  - by exists (take 13 def_f_tokens), (mkTokenInfo ENDMARKER "" (3, 0) (3, 0) "").
  - by exists [mkTokenInfo ENCODING "utf-8" (0, 0) (0, 0) ""],
      (mkTokenInfo ENDMARKER "" (1, 0) (1, 0) "").
Qed.

Lemma get_token_stream_last_witness :
  ["def"; "f"; "("; "x"; ")"; ":"; "return"; "x"; ""] ≠ [] ∧
  last ["def"; "f"; "("; "x"; ")"; ":"; "return"; "x"; ""] = Some "".
Proof.
  apply (get_token_stream_last stub_ast_parse stub_tokenize
           def_f_source "python"
           [EvAstParse def_f_source; EvTokenize def_f_source]).
  - apply stub_tokenize_endmarker.
  - reflexivity.
Defined.

(** ** [get_code] *)

Section loader_facts.
Context {V : Type}.
Variable load_dataset : string → string → result (DatasetDict V).

Local Abbreviation get_code := (get_code load_dataset).

Lemma dataset_getitem_Return (ds : Dataset V) column :
  (∀ row, row ∈ ds → is_Some (row !! column)) →
  ∃ out, dataset_getitem ds column = Return out ∧
    length out = length ds ∧
    ∀ i row, ds !! i = Some row → out !! i = row !! column.
Proof.
  intros Hcol. unfold dataset_getitem.
  destruct (mapM (λ row : Row V, row !! column) ds) as [out|] eqn:Hout.
  - exists out. apply mapM_Some in Hout. split; [done|]. split.
    + symmetry. by eapply Forall2_length.
    + intros i row Hi.
      destruct (Forall2_lookup_l _ _ _ _ _ Hout Hi) as (v & -> & ->). done.
  - apply mapM_None, Exists_exists in Hout as (row & Hrow & Hnone).
    apply Hcol in Hrow as [v Hv]. congruence.
Qed.

(** The three ways a call of [get_code] goes. *)
Lemma get_code_unfold partition language :
  get_code partition language
  = ([EvLoadDataset "code_search_net" language],
     match load_dataset "code_search_net" language with
     | Raise e => Raise e
     | Return raw_datasets =>
         match raw_datasets !! partition with
         | None => Raise (KeyError partition)
         | Some split => dataset_getitem split "whole_func_string"
         end
     end).
Proof.
  unfold get_code, call, step, datasetdict_getitem.
  destruct (load_dataset "code_search_net" language) as [dd|e]; [|done].
  rewrite bind_Return.
  destruct (dd !! partition) as [split|] eqn:Hsplit; [|done].
  rewrite bind_Return. by destruct (dataset_getitem _ _).
Qed.

(** C9. When the dataset source yields a split for the partition and
    language, [get_code] returns the [whole_func_string] of every record of
    the split: as many values as records, in the records' order.  A failure
    of the source to find the dataset or the language, or of the result to
    have the partition, reaches the caller as it is. *)
Theorem get_code_column partition language :
  (∀ raw_datasets split,
     load_dataset "code_search_net" language = Return raw_datasets →
     raw_datasets !! partition = Some split →
     (∀ row, row ∈ split → is_Some (row !! "whole_func_string")) →
     ∃ out,
       get_code partition language
       = ([EvLoadDataset "code_search_net" language], Return out) ∧
       length out = length split ∧
       ∀ i row, split !! i = Some row →
         out !! i = row !! "whole_func_string") ∧
  (∀ e,
     load_dataset "code_search_net" language = Raise e →
     get_code partition language
     = ([EvLoadDataset "code_search_net" language], Raise e)) ∧
  (∀ raw_datasets,
     load_dataset "code_search_net" language = Return raw_datasets →
     raw_datasets !! partition = None →
     get_code partition language
     = ([EvLoadDataset "code_search_net" language],
        Raise (KeyError partition))).
Proof.
  rewrite get_code_unfold. split_and!.
  - intros raw_datasets split Hload Hsplit Hcol.
    destruct (dataset_getitem_Return split "whole_func_string" Hcol)
      as (out & Hout & Hlen & Hget).
    exists out. by rewrite Hload, Hsplit, Hout.
  - by intros e ->.
  - intros raw_datasets -> Hnone. by rewrite Hnone.
Qed.
End loader_facts.

Lemma get_code_column_witness :
  get_code stub_load_dataset "train" "python"
  = ([EvLoadDataset "code_search_net" "python"],
     Return [def_f_source; "def g(): pass"]) ∧
  get_code stub_load_dataset "train" "go"
  = ([EvLoadDataset "code_search_net" "go"],
     Raise (LibraryError "ValueError" "BuilderConfig not found")) ∧
  get_code stub_load_dataset "validation" "python"
  = ([EvLoadDataset "code_search_net" "python"],
     Raise (KeyError "validation")).
Proof.
  split_and!.
  - destruct (get_code_column stub_load_dataset "train" "python")
      as (Hok & _ & _).
    destruct (Hok _ _ eq_refl eq_refl) as (out & -> & Hlen & Hget).
    + intros row Hrow. repeat apply elem_of_cons in Hrow as [->|Hrow];
        [by eexists..|by apply elem_of_nil in Hrow].
    + do 2 f_equal. apply list_eq. intros [|[|i]].
      * by rewrite (Hget 0 _ eq_refl).
      * by rewrite (Hget 1 _ eq_refl).
      * rewrite !lookup_ge_None_2; [done|simpl; lia|rewrite Hlen; simpl; lia].
  - by eapply (get_code_column stub_load_dataset "train" "go").
  - by eapply (get_code_column stub_load_dataset "validation" "python").
Defined.

(** * Further properties *)

(** ** The vocabulary as a ranking *)

Section ranking.
Implicit Types S : gset string.

Lemma sorted_lookup_lt S i j x y :
  sorted S !! i = Some x → sorted S !! j = Some y → i < j → str_lt x y.
Proof.
  intros Hi Hj Hij. apply str_lt_alt. split.
  - eapply (StronglySorted_lookup_lt str_le); [apply StronglySorted_sorted|..];
      done.
  - intros ->. pose proof (NoDup_lookup _ i j y (NoDup_sorted S) Hi Hj). lia.
Qed.

Lemma sorted_lookup_lt_inv S i j x y :
  sorted S !! i = Some x → sorted S !! j = Some y → str_lt x y → i < j.
Proof.
  intros Hi Hj Hlt. destruct (Nat.lt_trichotomy i j) as [?|[->|Hgt]]; [done|..].
  - assert (x = y) as -> by congruence. by apply str_lt_irrefl in Hlt.
  - pose proof (sorted_lookup_lt S j i y x Hj Hi Hgt).
    destruct (str_lt_irrefl x). by transitivity y.
Qed.

(** The position of a token in sorted order is the number of tokens of the
    set below it. *)
Lemma sorted_rank S i t :
  sorted S !! i = Some t → size (filter (λ u, str_lt u t) S) = i.
Proof.
  intros Hi.
  assert (filter (λ u, str_lt u t) S = list_to_set (take i (sorted S))) as ->.
  { apply set_eq. intros u.
    rewrite elem_of_filter, elem_of_list_to_set, elem_of_take. split.
    - intros [Hlt [j Hj]%elem_of_sorted%list_elem_of_lookup]. exists j.
      split; [done|]. by eapply sorted_lookup_lt_inv.
    - intros (j & Hj & Hji). split; [by eapply sorted_lookup_lt|].
      eapply elem_of_sorted, list_elem_of_lookup_2, Hj. }
  rewrite size_list_to_set.
  - apply length_take_le, Nat.lt_le_incl. by eapply lookup_lt_Some.
  - apply (sublist_NoDup _ (sorted S)); [apply NoDup_sorted|apply sublist_take].
Qed.
End ranking.

(** X1. The id of a token of the corpus is the number of distinct tokens
    of the corpus that are strictly below it in string order. *)
Theorem create_vocab_rank (corpus : list (list string)) (t : string) :
  (∃ doc, doc ∈ corpus ∧ t ∈ doc) →
  PyDict.get (create_vocab corpus).1 t
  = Some (size (filter (λ u, str_lt u t) (distinct_tokens corpus))).
Proof.
  intros Ht%elem_of_distinct_tokens%elem_of_sorted.
  apply list_elem_of_lookup in Ht as [i Hi].
  apply token2id_lookup. by rewrite (sorted_rank _ i t Hi).
Qed.

Lemma create_vocab_rank_witness :
  PyDict.get (create_vocab [["b"; "c"]; ["a"; "c"]]).1 "c"
  = Some (size (filter (λ u, str_lt u "c")
                 (distinct_tokens [["b"; "c"]; ["a"; "c"]]))).
Proof.
  apply (create_vocab_rank [["b"; "c"]; ["a"; "c"]] "c").
  exists ["b"; "c"]. split; [by left|]. right. by left.
Defined.

(** X2. A token of the corpus has id 0 exactly when no token of the corpus
    is below it; so the empty string, when it occurs, has id 0. *)
Theorem create_vocab_least (corpus : list (list string)) (t : string) :
  (∃ doc, doc ∈ corpus ∧ t ∈ doc) →
  (PyDict.get (create_vocab corpus).1 t = Some 0 ↔
   ∀ u doc, doc ∈ corpus → u ∈ doc → str_le t u) ∧
  (t = "" → PyDict.get (create_vocab corpus).1 t = Some 0 ∧
            PyDict.get (create_vocab corpus).2 0 = Some t).
Proof.
  intros Ht.
  assert (PyDict.get (create_vocab corpus).1 t = Some 0 ↔
          ∀ u doc, doc ∈ corpus → u ∈ doc → str_le t u) as Hleast.
  { pose proof Ht as Ht'.
    apply elem_of_distinct_tokens, elem_of_sorted in Ht'.
    apply list_elem_of_lookup in Ht' as [i Hi].
    rewrite token2id_lookup. split.
    - intros H0 u doc Hdoc Hu.
      assert (u ∈ sorted (distinct_tokens corpus)) as [j Hj]%list_elem_of_lookup.
      { apply elem_of_sorted, elem_of_distinct_tokens. by exists doc. }
      destruct j as [|j].
      + assert (t = u) as -> by congruence. done.
      + apply str_le_alt. left. eapply sorted_lookup_lt; [done..|lia].
    - intros Hmin. destruct i as [|i]; [done|].
      destruct (lookup_lt_is_Some_2 (sorted (distinct_tokens corpus)) 0)
        as [u Hu].
      { apply lookup_lt_Some in Hi. lia. }
      assert (str_lt u t) as Hlt by (eapply sorted_lookup_lt; [done..|lia]).
      assert (str_le t u) as Hle.
      { apply list_elem_of_lookup_2, elem_of_sorted in Hu.
        apply elem_of_distinct_tokens in Hu as (doc & Hdoc & Hu).
        by eapply Hmin. }
      apply str_lt_alt in Hlt as [Hle' Hne]. destruct Hne.
      by apply (anti_symm str_le). }
  split; [done|]. intros ->.
  assert (PyDict.get (create_vocab corpus).1 "" = Some 0) as H0.
  { apply Hleast. intros u _ _ _. by destruct u. }
  split; [done|]. by apply id2token_lookup, token2id_lookup.
Qed.

Lemma create_vocab_least_witness :
  (PyDict.get (create_vocab [["x"; ""]; ["def"]]).1 "" = Some 0 ↔
   ∀ u doc, doc ∈ [["x"; ""]; ["def"]] → u ∈ doc → str_le "" u) ∧
  ("" = "" → PyDict.get (create_vocab [["x"; ""]; ["def"]]).1 "" = Some 0 ∧
             PyDict.get (create_vocab [["x"; ""]; ["def"]]).2 0 = Some "").
Proof.
  apply (create_vocab_least [["x"; ""]; ["def"]] "").
  exists ["x"; ""]. split; [by left|]. right. by left.
Defined.

Lemma distinct_tokens_app c1 c2 :
  distinct_tokens (c1 ++ c2) = distinct_tokens c1 ∪ distinct_tokens c2.
Proof.
  unfold distinct_tokens. by rewrite concat_app, list_to_set_app_L.
Qed.

(** X3. Adding documents to a corpus never lowers the id of a token: the
    id grows by the number of new distinct tokens below the token, which is
    at most the number of distinct tokens of the added documents. *)
Theorem create_vocab_extend (corpus extra : list (list string)) t i :
  PyDict.get (create_vocab corpus).1 t = Some i →
  ∃ j, PyDict.get (create_vocab (corpus ++ extra)).1 t = Some j ∧
       i ≤ j ≤ i + size (distinct_tokens extra).
Proof.
  intros Hi%token2id_lookup.
  assert (t ∈ distinct_tokens (corpus ++ extra)) as Ht.
  { rewrite distinct_tokens_app. apply elem_of_union. left.
    eapply elem_of_sorted, list_elem_of_lookup_2, Hi. }
  apply elem_of_sorted, list_elem_of_lookup in Ht as [j Hj].
  exists j. split; [by apply token2id_lookup|].
  apply sorted_rank in Hi, Hj. rewrite distinct_tokens_app in Hj.
  assert (filter (λ u, str_lt u t) (distinct_tokens corpus ∪ distinct_tokens extra)
          = filter (λ u, str_lt u t) (distinct_tokens corpus)
            ∪ filter (λ u, str_lt u t) (distinct_tokens extra)) as Hunion
    by apply leibniz_equiv, filter_union.
  rewrite Hunion, size_union_alt, Hi in Hj.
  split; [lia|]. rewrite <-Hj. apply Nat.add_le_mono_l, subseteq_size.
  intros u [[_ Hu]%elem_of_filter _]%elem_of_difference. done.
Qed.

Lemma create_vocab_extend_witness :
  ∃ j, PyDict.get (create_vocab ([["b"; "d"]] ++ [["a"; "c"; "e"]])).1 "d"
       = Some j ∧
       1 ≤ j ≤ 1 + size (distinct_tokens [["a"; "c"; "e"]]).
Proof.
  apply (create_vocab_extend [["b"; "d"]] [["a"; "c"; "e"]] "d" 1).
  reflexivity.
Defined.

Lemma StronglySorted_str_lt (l : list string) :
  StronglySorted str_le l → NoDup l → StronglySorted str_lt l.
Proof.
  induction 1 as [|x l Hl IH Hx]; intros Hnd; [constructor|].
  apply NoDup_cons in Hnd as [Hx' Hnd]. constructor; [by apply IH|].
  apply Forall_forall. intros y Hy. apply str_lt_alt. split.
  - by eapply Forall_forall in Hx.
  - by intros ->.
Qed.

(** X4. Iterating [token2id] visits the tokens in strictly ascending order
    with the ids [0, 1, 2, ...] in step, and [id2token] holds the same
    items, swapped, in the same order. *)
Theorem create_vocab_items_order (corpus : list (list string)) :
  let token2id := (create_vocab corpus).1 in
  let id2token := (create_vocab corpus).2 in
  StronglySorted str_lt (PyDict.keys token2id) ∧
  (PyDict.items token2id).*2 = seq 0 (size (distinct_tokens corpus)) ∧
  PyDict.items id2token = prod_swap <$> PyDict.items token2id.
Proof.
  intros token2id id2token. subst token2id id2token. split_and!.
  - rewrite token2id_keys.
    apply StronglySorted_str_lt; [apply StronglySorted_sorted|].
    apply NoDup_sorted.
  - rewrite create_vocab_closed_form. unfold PyDict.items. simpl.
    by rewrite snd_zip_seq, length_sorted.
  - rewrite create_vocab_closed_form. unfold PyDict.items. simpl.
    by rewrite swap_zip_seq.
Qed.

(** X5. Any sequence of tokens of the corpus (a document of it, for one)
    can be encoded through [token2id] and decoded back through [id2token]:
    every token has an id, the ids are below the number of distinct tokens,
    and looking the ids up gives the sequence back. *)
Theorem create_vocab_encode_decode (corpus : list (list string)) doc :
  (∀ t, t ∈ doc → ∃ d, d ∈ corpus ∧ t ∈ d) →
  ∃ ids,
    mapM (PyDict.get (create_vocab corpus).1) doc = Some ids ∧
    Forall (λ i, i < size (distinct_tokens corpus)) ids ∧
    mapM (PyDict.get (create_vocab corpus).2) ids = Some doc.
Proof.
  induction doc as [|t doc IH]; intros Hdoc.
  - by exists [].
  - destruct IH as (ids & Henc & Hlt & Hdec).
    { intros u Hu. apply Hdoc. by right. }
    assert (t ∈ sorted (distinct_tokens corpus)) as [i Hi]%list_elem_of_lookup.
    { apply elem_of_sorted, elem_of_distinct_tokens, Hdoc. by left. }
    exists (i :: ids). split_and!.
    + apply mapM_Some. constructor; [by apply token2id_lookup|].
      by apply mapM_Some.
    + constructor; [|done]. rewrite <-length_sorted. by eapply lookup_lt_Some.
    + apply mapM_Some. constructor; [by apply id2token_lookup|].
      by apply mapM_Some.
Qed.

Lemma create_vocab_encode_decode_witness :
  ∃ ids,
    mapM (PyDict.get (create_vocab [["b"; "a"]; ["c"; "b"; "b"]]).1)
         ["c"; "b"; "b"] = Some ids ∧
    Forall (λ i, i < size (distinct_tokens [["b"; "a"]; ["c"; "b"; "b"]])) ids ∧
    mapM (PyDict.get (create_vocab [["b"; "a"]; ["c"; "b"; "b"]]).2) ids
    = Some ["c"; "b"; "b"].
Proof.
  apply (create_vocab_encode_decode [["b"; "a"]; ["c"; "b"; "b"]]
           ["c"; "b"; "b"]).
  intros t Ht. exists ["c"; "b"; "b"]. split; [|done]. right. by left.
Defined.

(** X6. Lookups outside the vocabulary find nothing: [token2id] has no
    entry exactly for the strings that occur in no document, and [id2token]
    none exactly for the numbers from the number of distinct tokens on. *)
Theorem create_vocab_missing (corpus : list (list string)) :
  (∀ t, PyDict.get (create_vocab corpus).1 t = None ↔
        ∀ doc, doc ∈ corpus → t ∉ doc) ∧
  (∀ i, PyDict.get (create_vocab corpus).2 i = None ↔
        size (distinct_tokens corpus) ≤ i).
Proof.
  split.
  - intros t. rewrite dict_get_None, token2id_keys, elem_of_sorted.
    rewrite elem_of_distinct_tokens. split.
    + intros Hno doc Hdoc Ht. apply Hno. by exists doc.
    + intros Hno (doc & Hdoc & Ht). by apply (Hno doc).
  - intros i. rewrite dict_get_None, id2token_keys, length_sorted.
    rewrite elem_of_seq. lia.
Qed.

Lemma size_list_to_set_le (l : list string) :
  size (list_to_set l : gset string) ≤ length l.
Proof.
  induction l as [|x l IH]; [done|].
  change (list_to_set (x :: l) : gset string)
    with ({[x]} ∪ list_to_set l : gset string).
  rewrite size_union_alt, size_singleton. simpl.
  assert (size (list_to_set l ∖ {[x]} : gset string) ≤ size (list_to_set l : gset string)).
  { apply subseteq_size. by intros u [Hu _]%elem_of_difference. }
  lia.
Qed.

(** X7. The vocabulary has at most as many entries as the corpus has
    tokens, and exactly as many when no token occurs twice; the two
    mappings always have the same number of entries. *)
Theorem create_vocab_len_bound (corpus : list (list string)) :
  PyDict.len (create_vocab corpus).1 = PyDict.len (create_vocab corpus).2 ∧
  PyDict.len (create_vocab corpus).1 ≤ length (concat corpus) ∧
  (NoDup (concat corpus) →
   PyDict.len (create_vocab corpus).1 = length (concat corpus)).
Proof.
  assert (PyDict.len (create_vocab corpus).1 = size (distinct_tokens corpus)
          ∧ PyDict.len (create_vocab corpus).2 = size (distinct_tokens corpus))
    as [-> ->].
  { rewrite create_vocab_closed_form. unfold PyDict.len. simpl.
    rewrite !length_zip_with, !length_seq, !length_sorted. lia. }
  split_and!; [done|apply size_list_to_set_le|].
  intros Hnd. by apply size_list_to_set.
Qed.

(** ** The outcomes of [get_token_stream] *)

Section tokenizer_outcomes.
Context {Ast : Type}.
Variable ast_parse : string → result Ast.
Variable tokenize_tokenize : string → generator TokenInfo.

Local Abbreviation get_token_stream :=
  (get_token_stream ast_parse tokenize_tokenize).

(** Every way a call can go. *)
Lemma get_token_stream_cases code language :
  get_token_stream code language
  = if bool_decide (language = "python") then
      match ast_parse code with
      | Raise e => ([EvAstParse code], Raise e)
      | Return _ =>
          ([EvAstParse code; EvTokenize code],
           match tokenize_tokenize code with
           | (toks, None) =>
               Return (tok_string <$>
                 filter (λ token, tok_type token ∉ useless_token_type) toks)
           | (_, Some e) => Raise e
           end)
      end
    else ([], Raise (AssertionError "Only support python for now")).
Proof.
  unfold get_token_stream, encode_utf8, call.
  case_bool_decide; [|done]. simpl.
  destruct (ast_parse code) as [tree|e]; [|done]. simpl.
  by destruct (tokenize_tokenize code) as [toks [e|]].
Qed.

(** X8. When the text parses but the tokenizer raises on the way, the
    call raises that exception; the tokens yielded before it are lost. *)
Theorem get_token_stream_tokenize_error code tree toks e :
  ast_parse code = Return tree →
  tokenize_tokenize code = (toks, Some e) →
  get_token_stream code "python"
  = ([EvAstParse code; EvTokenize code], Raise e).
Proof.
  intros Hparse Htok. rewrite get_token_stream_cases.
  rewrite bool_decide_true by done. by rewrite Hparse, Htok.
Qed.

(** X9. A call returns a list exactly when the language is ["python"], the
    parser accepts the text and the tokenizer runs to its end; in every
    other case it raises. *)
Theorem get_token_stream_returns_iff code language :
  (∃ tr out, get_token_stream code language = (tr, Return out)) ↔
  language = "python" ∧
  (∃ tree, ast_parse code = Return tree) ∧
  (∃ toks, tokenize_tokenize code = (toks, None)).
Proof.
  split.
  - intros (tr & out & Hrun).
    apply get_token_stream_Return_inv in Hrun
      as (Hlang & tree & toks & Hparse & Htok & _).
    split; [done|]. split; [by exists tree|by exists toks].
  - intros (-> & [tree Hparse] & [toks Htok]). do 2 eexists.
    by eapply get_token_stream_Return.
Qed.

(** X10. The tokenizer is run only on text the parser has accepted, and
    only after the parse: the library calls of a run are none, the parse
    alone, or the parse followed by the tokenization. *)
Theorem get_token_stream_trace code language :
  let tr := (get_token_stream code language).1 in
  (tr = [] ∨ tr = [EvAstParse code]
   ∨ tr = [EvAstParse code; EvTokenize code]) ∧
  (EvTokenize code ∈ tr →
   language = "python" ∧ ∃ tree, ast_parse code = Return tree).
Proof.
  simpl. rewrite get_token_stream_cases.
  case_bool_decide as Hlang; simpl.
  - destruct (ast_parse code) as [tree|e]; simpl.
    + split; [by right; right|]. intros _. split; [done|by exists tree].
    + split; [by right; left|].
      intros [[=]|[]%elem_of_nil]%elem_of_cons.
  - split; [by left|]. by intros ?%elem_of_nil.
Qed.

(** X11. The number of returned texts is the number of tokens of the
    stream less the number of discarded ones; so the result is never longer
    than the stream. *)
Theorem get_token_stream_length code tree toks :
  ast_parse code = Return tree →
  tokenize_tokenize code = (toks, None) →
  ∃ out,
    (get_token_stream code "python").2 = Return out ∧
    length out
    + length (filter (λ token, tok_type token ∈ useless_token_type) toks)
    = length toks.
Proof.
  intros Hparse Htok. eexists. split.
  - by rewrite (get_token_stream_Return _ _ _ _ _ Hparse Htok).
  - rewrite length_fmap. clear Htok.
    induction toks as [|token toks IH]; [done|].
    rewrite !filter_cons. destruct (decide (tok_type token ∈ _));
      [rewrite decide_False by tauto|rewrite decide_True by tauto];
      simpl; lia.
Qed.
End tokenizer_outcomes.

Lemma get_token_stream_tokenize_error_witness :
  get_token_stream stub_ast_parse
    (λ _, ([mkTokenInfo ENCODING "utf-8" (0, 0) (0, 0) ""],
           Some (LibraryError "TokenError" "EOF in multi-line statement")))
    def_f_source "python"
  = ([EvAstParse def_f_source; EvTokenize def_f_source],
     Raise (LibraryError "TokenError" "EOF in multi-line statement")).
Proof.
  apply (get_token_stream_tokenize_error stub_ast_parse _ def_f_source tt
           [mkTokenInfo ENCODING "utf-8" (0, 0) (0, 0) ""]); reflexivity.
Defined.

Lemma get_token_stream_length_witness :
  ∃ out,
    (get_token_stream stub_ast_parse stub_tokenize def_f_source "python").2
    = Return out ∧
    length out
    + length (filter (λ token, tok_type token ∈ useless_token_type)
                def_f_tokens)
    = length def_f_tokens.
Proof.
  apply (get_token_stream_length stub_ast_parse stub_tokenize def_f_source tt
           def_f_tokens); reflexivity.
Defined.

(** X12. The parse tree is not used: with two parsers that both accept the
    text, whatever trees they build, the calls go the same way. *)
Theorem get_token_stream_ignores_tree {A1 A2 : Type}
    (parse1 : string → result A1) (parse2 : string → result A2)
    (tokenize_tokenize : string → generator TokenInfo)
    code language tree1 tree2 :
  parse1 code = Return tree1 →
  parse2 code = Return tree2 →
  get_token_stream parse1 tokenize_tokenize code language
  = get_token_stream parse2 tokenize_tokenize code language.
Proof.
  intros H1 H2. by rewrite !get_token_stream_cases, H1, H2.
Qed.

Lemma get_token_stream_ignores_tree_witness :
  get_token_stream stub_ast_parse stub_tokenize def_f_source "python"
  = get_token_stream (λ source, Return (String.length source))
      stub_tokenize def_f_source "python".
Proof.
  apply (get_token_stream_ignores_tree stub_ast_parse
           (λ source, Return (String.length source)) stub_tokenize
           def_f_source "python" tt (String.length def_f_source));
    reflexivity.
Defined.

(** X13. Only the categories and texts of the tokens matter: two
    tokenizations that agree on them, whatever positions and lines they
    report, give the same list. *)
Theorem get_token_stream_ignores_positions {Ast : Type}
    (ast_parse : string → result Ast)
    (tokenize1 tokenize2 : string → generator TokenInfo)
    code language toks1 toks2 :
  tokenize1 code = (toks1, None) →
  tokenize2 code = (toks2, None) →
  (λ token, (tok_type token, tok_string token)) <$> toks1
  = (λ token, (tok_type token, tok_string token)) <$> toks2 →
  get_token_stream ast_parse tokenize1 code language
  = get_token_stream ast_parse tokenize2 code language.
Proof.
  intros H1 H2 Hsame. rewrite !get_token_stream_cases, H1, H2.
  by rewrite !texts_of_retained, Hsame.
Qed.

Lemma get_token_stream_ignores_positions_witness :
  get_token_stream stub_ast_parse stub_tokenize def_f_source "python"
  = get_token_stream stub_ast_parse
      (λ source,
         ((λ token, mkTokenInfo (tok_type token) (tok_string token)
                      (0, 0) (0, 0) "") <$> (stub_tokenize source).1,
          None))
      def_f_source "python".
Proof.
  by eapply (get_token_stream_ignores_positions stub_ast_parse stub_tokenize
               _ def_f_source "python").
Defined.

(** ** From token streams to a vocabulary *)

Lemma str_lt_empty_r u : ¬ str_lt u "".
Proof. unfold str_lt, String.ltb. by destruct u. Qed.

Lemma token2id_empty_string (corpus : list (list string)) :
  "" ∈ distinct_tokens corpus →
  PyDict.get (create_vocab corpus).1 "" = Some 0
  ∧ PyDict.get (create_vocab corpus).2 0 = Some "".
Proof.
  intros [i Hi]%elem_of_sorted%list_elem_of_lookup.
  assert (i = 0) as ->.
  { rewrite <-(sorted_rank _ i "" Hi).
    apply size_empty_iff, elem_of_equiv_empty.
    intros u [Hlt _]%elem_of_filter. by apply str_lt_empty_r in Hlt. }
  split; [by apply token2id_lookup|by apply id2token_lookup].
Qed.

Section pipeline.
Context {Ast : Type}.
Variable ast_parse : string → result Ast.
Variable tokenize_tokenize : string → generator TokenInfo.

Local Abbreviation get_token_stream :=
  (get_token_stream ast_parse tokenize_tokenize).

Lemma get_token_stream_has_endmarker code language tr out :
  (∀ toks, tokenize_tokenize code = (toks, None) →
     ∃ toks' endmarker, toks = toks' ++ [endmarker] ∧
       tok_type endmarker = ENDMARKER ∧ tok_string endmarker = "") →
  get_token_stream code language = (tr, Return out) →
  "" ∈ out.
Proof.
  intros Hend (_ & tree & toks & _ & Htok & ->)%get_token_stream_Return_inv.
  destruct (Hend _ Htok) as (toks' & endmarker & -> & Hty & Hstr).
  apply list_elem_of_fmap. exists endmarker. split; [done|].
  apply list_elem_of_filter. split.
  - rewrite Hty, elem_of_useless_token_type. intuition discriminate.
  - apply elem_of_app. right. by left.
Qed.

(** X14. Given that a tokenization that runs to its end yields the end
    marker, with empty text, last: in the vocabulary of a non-empty corpus
    of lists returned by [get_token_stream], the empty string has id 0. *)
Theorem create_vocab_of_token_streams codes docs :
  (∀ code toks, code ∈ codes → tokenize_tokenize code = (toks, None) →
     ∃ toks' endmarker, toks = toks' ++ [endmarker] ∧
       tok_type endmarker = ENDMARKER ∧ tok_string endmarker = "") →
  Forall2 (λ code doc, ∃ tr, get_token_stream code "python" = (tr, Return doc))
          codes docs →
  codes ≠ [] →
  PyDict.get (create_vocab docs).1 "" = Some 0 ∧
  PyDict.get (create_vocab docs).2 0 = Some "".
Proof.
  intros Hend Hdocs Hne. apply token2id_empty_string.
  destruct Hdocs as [|code doc codes docs [tr Hrun] _]; [done|].
  apply elem_of_distinct_tokens. exists doc. split; [by left|].
  apply (get_token_stream_has_endmarker code "python" tr doc); [|done].
  intros toks. apply Hend. by left.
Qed.
End pipeline.

Lemma create_vocab_of_token_streams_witness :
  PyDict.get (create_vocab
    [ ["def"; "f"; "("; "x"; ")"; ":"; "return"; "x"; ""];
      ["def"; "f"; "("; "x"; ")"; ":"; "return"; "x"; ""] ]).1 ""
  = Some 0 ∧
  PyDict.get (create_vocab
    [ ["def"; "f"; "("; "x"; ")"; ":"; "return"; "x"; ""];
      ["def"; "f"; "("; "x"; ")"; ":"; "return"; "x"; ""] ]).2 0
  = Some "".
Proof.
  apply (create_vocab_of_token_streams stub_ast_parse stub_tokenize
           [def_f_source; def_f_source]).
  - intros code toks _. apply stub_tokenize_endmarker.
  - repeat constructor; by eexists.
  - done.
Defined.

(** ** What [get_code] reads *)

Lemma mapM_fmap_eq {A B} (f : A → option B) (l1 l2 : list A) :
  f <$> l1 = f <$> l2 → mapM f l1 = mapM f l2.
Proof.
  revert l2. induction l1 as [|x l1 IH]; intros [|y l2]; try done.
  rewrite !fmap_cons. intros [= Hxy Hl]. simpl. by rewrite Hxy, (IH l2 Hl).
Qed.

(** X15. Only the [whole_func_string] field is read: two dataset sources
    whose splits for the partition agree on that field, record by record,
    make [get_code] return the same, whatever their other fields and other
    splits hold. *)
Theorem get_code_other_fields {V : Type}
    (load1 load2 : string → string → result (DatasetDict V))
    partition language raw1 raw2 split1 split2 :
  load1 "code_search_net" language = Return raw1 →
  load2 "code_search_net" language = Return raw2 →
  raw1 !! partition = Some split1 →
  raw2 !! partition = Some split2 →
  (λ row : Row V, row !! "whole_func_string") <$> split1
  = (λ row : Row V, row !! "whole_func_string") <$> split2 →
  get_code load1 partition language = get_code load2 partition language.
Proof.
  intros Hload1 Hload2 Hsplit1 Hsplit2 Hcol.
  rewrite !get_code_unfold, Hload1, Hload2, Hsplit1, Hsplit2.
  unfold dataset_getitem. by rewrite (mapM_fmap_eq _ _ _ Hcol).
Qed.

Lemma get_code_other_fields_witness :
  get_code stub_load_dataset "train" "python"
  = get_code
      (λ _ _, Return (<["train" :=
         [ {[ "whole_func_string" := def_f_source ]};
           {[ "language" := "python";
              "whole_func_string" := "def g(): pass" ]} ]]> ∅))
      "train" "python".
Proof.
  by eapply (get_code_other_fields stub_load_dataset _ "train" "python").
Defined.

